(** * attending: the documentation cache library (src/attending/library.py)

    A shallow embedding of [library.py].  The program is sequential Python
    that inspects and mutates the file system and calls four collaborators
    of the package ([downloader.write_to_file], [fallback.get_doc_url],
    [index.load_attending_index] / [index.load_index], [doc.Module]) and two
    services of the host ([importlib.import_module], the
    [pkg_resources.working_set.by_key] registry).

    - The file system is a finite map from paths to nodes.
    - Effects are threaded through a state monad with exceptions; the state
      survives a raised exception, as it does on disk.
    - The collaborators are the fields of the class [Env]; every theorem is
      proved for an arbitrary environment, and the concrete environment
      [Demo.env] is used to evaluate the code on explicit inputs. *)

From Stdlib Require Import Ascii.
From stdpp Require Import gmap strings list fin_maps.

Open Scope string_scope.
Open Scope list_scope.

(** ** Paths and the file system *)

(** A path is the list of its components below the file-system root.  The
    operator [p / s] of [pathlib] is modelled for a single component [s]:
    package names and versions are atomic path components. *)
Abbreviation path := (list string).

Definition joinpath (p : path) (s : string) : path := p ++ [s].

(** What [pathlib] itself does with an arbitrary string operand: the
    string is cut at every ["/"], empty and ["."] pieces are dropped, and an
    operand that starts with ["/"] replaces the left-hand path.  A [".."]
    piece is kept as it is and left to the operating system. *)
Fixpoint split_slash (s : string) : list string :=
  match s with
  | EmptyString => [EmptyString]
  | String c rest =>
      if Ascii.eqb c "/" then EmptyString :: split_slash rest
      else match split_slash rest with
           | [] => [String c EmptyString]
           | x :: xs => String c x :: xs
           end
  end.

Definition kept_part (s : string) : bool :=
  negb (String.eqb s "") && negb (String.eqb s ".").

Definition path_parts (s : string) : list string :=
  List.filter kept_part (split_slash s).

Definition is_absolute (s : string) : bool :=
  match s with
  | String c _ => Ascii.eqb c "/"
  | EmptyString => false
  end.

Definition pathlib_join (p : path) (s : string) : path :=
  if is_absolute s then path_parts s else p ++ path_parts s.

Fixpoint has_separator (s : string) : bool :=
  match s with
  | EmptyString => false
  | String c rest => Ascii.eqb c "/" || has_separator rest
  end.

(** A plain component: a string that names one directory entry, that is,
    not empty, not ["."] or [".."], and without ["/"].  On plain components
    [joinpath] is [pathlib]'s operator (lemma [pathlib_join_plain]), and a
    path of plain components is resolved by the operating system as it is
    written. *)
Definition is_plain (s : string) : bool :=
  negb (String.eqb s "") && negb (String.eqb s ".") &&
  negb (String.eqb s "..") && negb (has_separator s).

Definition plain_path (p : path) : Prop := Forall (fun c => is_plain c = true) p.

Declare Scope path_scope.
Delimit Scope path_scope with path.
Notation "p // s" := (joinpath p s) (at level 40, left associativity) : path_scope.
Open Scope path_scope.

Inductive node : Type :=
| Dir
| File (content : string).

#[global] Instance node_eq_dec : EqDecision node.
Proof. solve_decision. Defined.

Abbreviation filesystem := (gmap path node).

(** The proper ancestors of a path, outermost first: the directories that
    [mkdir(parents=True)] walks through. *)
Fixpoint ancestors (p : path) : list path :=
  match p with
  | [] => []
  | c :: q => [] :: map (cons c) (ancestors q)
  end.

Definition is_file (o : option node) : bool :=
  match o with
  | Some (File _) => true
  | _ => false
  end.

Definition is_dir_node (o : option node) : bool :=
  match o with
  | Some Dir => true
  | _ => false
  end.

(** ** Exceptions and the effect monad *)

Inductive exn : Type :=
| KeyError
| FileExistsError (p : path)
| NotADirectoryError (p : path)
| ImportError
| RuntimeError (msg : string)
| TypeError (msg : string)
| ValueError (msg : string)
| OtherError (msg : string).

#[global] Instance exn_eq_dec : EqDecision exn.
Proof. solve_decision. Defined.

Abbreviation result A := (exn + A)%type.

(** One recorded invocation of the download collaborator:
    [write_to_file(location, name, version, url)]. *)
Record download_call : Type := DownloadCall {
  dl_location : path;
  dl_name : string;
  dl_version : string;
  dl_url : option string
}.

#[global] Instance download_call_eq_dec : EqDecision download_call.
Proof. solve_decision. Defined.

(** The world: the disk, and the trace of the calls made to the download
    collaborator (a ghost field, invisible to the program). *)
Record World : Type := mkWorld {
  fs : filesystem;
  downloads : list download_call
}.

Definition Py (A : Type) : Type := World -> result A * World.

Definition ret {A} (a : A) : Py A := fun w => (inr a, w).

Definition raise {A} (e : exn) : Py A := fun w => (inl e, w).

Definition bind {A B} (m : Py A) (k : A -> Py B) : Py B :=
  fun w =>
    match m w with
    | (inr a, w') => k a w'
    | (inl e, w') => (inl e, w')
    end.

(** A pure computation that may raise, run inside [Py]. *)
Definition lift {A} (r : result A) : Py A := fun w => (r, w).

Declare Scope py_scope.
Delimit Scope py_scope with py.
Notation "x <- m ;; k" := (bind m (fun x => k))
  (at level 100, m at next level, right associativity) : py_scope.
Notation "m ;;; k" := (bind m (fun _ => k))
  (at level 100, right associativity) : py_scope.
Open Scope py_scope.

(** [try: body / except KeyError: handler] on a pure computation. *)
Definition try_except_KeyError {A} (body : result A) (handler : result A) : result A :=
  match body with
  | inl KeyError => handler
  | r => r
  end.

(** [d[k]] on a dictionary: raises [KeyError] on a missing key. *)
Definition getitem {V} (d : gmap string V) (k : string) : result V :=
  match d !! k with
  | Some v => inr v
  | None => inl KeyError
  end.

(** ** pathlib primitives *)

(** [Path.exists()] *)
Definition path_exists (p : path) : Py bool :=
  fun w => (inr (bool_decide (is_Some (fs w !! p))), w).

(** [Path.is_dir()] *)
Definition is_dir (p : path) : Py bool :=
  fun w => (inr (is_dir_node (fs w !! p)), w).

Definition make_dirs (p : path) (d : filesystem) : filesystem :=
  foldr (fun q acc => <[q := Dir]> acc) d (ancestors p ++ [p]).

(** [Path.mkdir(parents=True)] (with [exist_ok=False]): [NotADirectoryError]
    when a proper ancestor is a regular file, [FileExistsError] when the
    path is already there, and otherwise the path and its missing ancestors
    become directories. *)
Definition mkdir_parents (p : path) : Py unit :=
  fun w =>
    match list_find (fun q => is_file (fs w !! q) = true) (ancestors p) with
    | Some (_, q) => (inl (NotADirectoryError q), w)
    | None =>
        if bool_decide (is_Some (fs w !! p))
        then (inl (FileExistsError p), w)
        else (inr tt, mkWorld (make_dirs p (fs w)) (downloads w))
    end.

(** ** The host's module objects *)

(** A loaded module: [__name__] is always there; [__version__] and
    [__doc_url__] are attributes a package may or may not define
    ([hasattr] is [is_Some]).  This is the string-typed view of a module,
    the one under which a version can be a path component; version
    resolution on arbitrary attribute values and registry entries is
    [Dynamic.get_module_version], of which the typed one is the restriction
    (lemma [get_module_version_refines]). *)
Record PyModule : Type := mkModule {
  __name__ : string;
  __version__ : option string;
  __doc_url__ : option string
}.

(** The first argument of [get_module_version], [fetch] and
    [attending_doc]: a string or a module object
    ([isinstance(module, str)] / [isinstance(module, ModuleType)]). *)
Inductive module_ref : Type :=
| ByName (name : string)
| ByObject (m : PyModule).

(** [hasattr(module, "__version__")] with the attribute's value. *)
Definition attr_version (module : module_ref) : option string :=
  match module with
  | ByName _ => None
  | ByObject m => __version__ m
  end.

(** ** Editions *)

(** Modelled from the spec: [doc.Module] is not part of the sources.
    [Module(location, name)[version]] is "a handle scoped to [root/name],
    version-selected". *)
Record Edition : Type := mkEdition {
  edition_home : path;
  edition_version : string
}.

#[global] Instance Edition_eq_dec : EqDecision Edition.
Proof. solve_decision. Defined.

Definition Module_getitem (location : path) (name version : string) : Edition :=
  mkEdition (location // name) version.

(** ** The collaborators *)

Class Env : Type := mkEnv {
  (** [Path().home()], the default of every [home] argument *)
  default_home : path;
  (** [pkg_resources.working_set.by_key], with each distribution's
      [.version] *)
  by_key : gmap string string;
  (** [importlib.import_module] *)
  import_module : string -> result PyModule;
  (** [fallback.get_doc_url]: [None] when no URL is known *)
  get_doc_url : string -> option string;
  (** [downloader.write_to_file(location, name, version, url)]: what it
      does to the disk, and the exception it raises, if any *)
  write_to_file_impl :
    path -> string -> string -> option string -> filesystem -> option exn * filesystem;
  (** [index.load_attending_index()] *)
  load_attending_index : gmap string string;
  (** [index.load_index(file)] *)
  load_index : path -> filesystem -> result (gmap string string);
  (** [Edition.retire()] *)
  retire_impl : Edition -> filesystem -> option exn * filesystem
}.

Section Collaborators.
Context `{!Env}.

(** The call [write_to_file(location, name, version, url)]: recorded in
    the trace, then run. *)
Definition write_to_file (location : path) (name version : string)
    (url : option string) : Py unit :=
  fun w =>
    let '(r, d) := write_to_file_impl location name version url (fs w) in
    (match r with Some e => inl e | None => inr tt end,
     mkWorld d (downloads w ++ [DownloadCall location name version url])).

Definition Edition_retire (e : Edition) : Py unit :=
  fun w =>
    let '(r, d) := retire_impl e (fs w) in
    (match r with Some e => inl e | None => inr tt end,
     mkWorld d (downloads w)).

(** ** library.py: get_module_version *)
Definition get_module_version (module : module_ref) : result string :=
  match attr_version module with
  | Some version => inr version
  | None =>
      try_except_KeyError
        (let name := match module with
                     | ByName s => s
                     | ByObject m => __name__ m
                     end in
         getitem by_key name)
        (inr "latest")
  end.

(** ** library.py: can_monitor *)
Definition can_monitor (module : PyModule) : bool :=
  bool_decide (is_Some (__doc_url__ module)).

(** ** library.py: options_exhausted

    [def options_exhausted(module)] takes one positional argument; the
    call is modelled with its argument list, and a call with any other
    number of arguments raises [TypeError] before the body runs. *)
Definition options_exhausted (args : list string) : result exn :=
  match args with
  | [module] => inr (RuntimeError ("Failed not find fallback url for " +:+ module))
  | _ => inl (TypeError "options_exhausted() takes 1 positional argument")
  end.

End Collaborators.

(** ** library.py: class Library *)

Record Library_t : Type := mkLibrary {
  location : path
}.

Module Library.
Section Methods.
Context `{!Env}.

(** [Library.__init__(self, home)] *)
Definition new (home : path) : Py Library_t :=
  let location := home // ".attending" in
  present <- path_exists location ;;
  (if negb present then mkdir_parents location else ret tt) ;;;
  ret (mkLibrary location).

Definition in_collection (self : Library_t) (name version : string) : Py bool :=
  let module_dir := location self // name in
  d <- is_dir module_dir ;;
  if negb d then ret false
  else is_dir (module_dir // version).

Definition get_edition (self : Library_t) (name version : string) : Py Edition :=
  present <- in_collection self name version ;;
  if negb present then raise KeyError
  else ret (Module_getitem (location self) name version).

Definition _add_project (self : Library_t) (name version : string)
    (url : option string) : Py unit :=
  let destination := location self // name // version in
  present <- path_exists destination ;;
  if present then raise (FileExistsError destination)
  else
    mkdir_parents destination ;;;
    write_to_file (location self) name version url.

Definition fetch (self : Library_t) (name version : string)
    (url : option string) : Py Edition :=
  present <- in_collection self name version ;;
  (if negb present then _add_project self name version url else ret tt) ;;;
  get_edition self name version.

Definition retire (self : Library_t) (name version : string) : Py unit :=
  e <- get_edition self name version ;;
  Edition_retire e.

End Methods.
End Library.

(** ** library.py: the top-level functions

    A [home] argument left out by the caller is [default_home]; an optional
    [version] or [url] is an [option]. *)
Section Orchestration.
Context `{!Env}.

Definition resolve_version (module : module_ref) (version : option string) : Py string :=
  match version with
  | None => lift (get_module_version module)
  | Some v => ret v
  end.

Definition attending_doc (module : module_ref) (version : option string)
    (home : path) : Py Edition :=
  version <- resolve_version module version ;;
  lib <- Library.new home ;;
  match module with
  | ByObject m => Library.get_edition lib (__name__ m) version
  | ByName name => Library.get_edition lib name version
  end.

Definition fetch_via_module (module : PyModule) (version : option string)
    (home : path) : Py Edition :=
  lib <- Library.new home ;;
  let mod_name := __name__ module in
  version <- resolve_version (ByObject module) version ;;
  (match __doc_url__ module with
   | Some doc_url => _ <- Library.fetch lib mod_name version (Some doc_url) ;; ret tt
   | None =>
       let url := get_doc_url mod_name in
       write_to_file (location lib) mod_name version url
   end) ;;;
  Library.get_edition lib mod_name version.

Definition fetch_via_name (module : string) (version : option string)
    (url : option string) (home : path) : Py Edition :=
  lib <- Library.new home ;;
  version <- resolve_version (ByName module) version ;;
  match url with
  | Some _ => Library.fetch lib module version url
  | None =>
      match import_module module with
      | inr python_module => fetch_via_module python_module (Some version) default_home
      | inl ImportError =>
          let url := get_doc_url module in
          match url with
          | None =>
              e <- lift (options_exhausted [module; version]) ;;
              raise e
          | Some _ => Library.fetch lib module version url
          end
      | inl e => raise e
      end
  end.

Definition fetch (module : module_ref) (version : option string)
    (home : path) : Py Edition :=
  match module with
  | ByObject m => fetch_via_module m version home
  | ByName name => fetch_via_name name version None home
  end.

(** The call [load_index(file)]: reads the disk, changes nothing. *)
Definition read_index (file : path) : Py (gmap string string) :=
  fun w => (load_index file (fs w), w).

(** [dict.update]: the entries of [other] replace those of [index]. *)
Definition dict_update (index other : gmap string string) : gmap string string :=
  other ∪ index.

Definition fetch_via_local_index (module : string) (home : path) : Py unit :=
  let index := load_attending_index in
  let local_index_file := default_home // ".attending" // "index.csv" in
  present <- path_exists local_index_file ;;
  index <- (if present
            then local <- read_index local_index_file ;; ret (dict_update index local)
            else ret index) ;;
  match index !! module with
  | Some url => _ <- fetch_via_name module None (Some url) home ;; ret tt
  | None => ret tt
  end.

End Orchestration.

(** ** Version resolution on arbitrary Python values

    [get_module_version] as the interpreter runs it, without the string
    typing of [PyModule] and of the registry: the attribute [__version__]
    can hold any value, and reading the [.version] of a registered
    distribution can raise ([pkg_resources] raises [ValueError] when the
    metadata has no version). *)
Module Dynamic.

Inductive pyval : Type :=
| PyStr (s : string)
| PyNone
| PyInt (n : Z)
| PyTuple (items : list Z).

#[global] Instance pyval_eq_dec : EqDecision pyval.
Proof. solve_decision. Defined.


Record ModuleType : Type := mkModuleType {
  __name__ : string;
  __version__ : option pyval
}.

(** A distribution of the registry: what reading its [.version] gives. *)
Record Distribution : Type := mkDistribution {
  version : result string
}.

(** The argument: a string or a module object. *)
Inductive arg : Type :=
| Str (name : string)
| Module (m : ModuleType).

(** [hasattr(module, "__version__")] with the attribute's value; a string
    has no such attribute. *)
Definition attr_version (module : arg) : option pyval :=
  match module with
  | Str _ => None
  | Module m => __version__ m
  end.

(** [module if isinstance(module, str) else module.__name__] *)
Definition lookup_name (module : arg) : string :=
  match module with
  | Str s => s
  | Module m => __name__ m
  end.

Definition get_module_version (by_key : gmap string Distribution) (module : arg)
    : result pyval :=
  match attr_version module with
  | Some v => inr v
  | None =>
      try_except_KeyError
        (let name := lookup_name module in
         match getitem by_key name with
         | inr dist =>
             match version dist with
             | inr v => inr (PyStr v)
             | inl e => inl e
             end
         | inl e => inl e
         end)
        (inr (PyStr "latest"))
  end.

End Dynamic.

(** The typed module objects and registry, seen as Python values. *)
Definition module_values (m : PyModule) : Dynamic.ModuleType :=
  Dynamic.mkModuleType (__name__ m) (Dynamic.PyStr <$> __version__ m).

Definition ref_values (module : module_ref) : Dynamic.arg :=
  match module with
  | ByName s => Dynamic.Str s
  | ByObject m => Dynamic.Module (module_values m)
  end.

Definition registry_values (by_key : gmap string string) : gmap string Dynamic.Distribution :=
  (fun v => Dynamic.mkDistribution (inr v)) <$> by_key.

(** ** Vocabulary of the statements *)

(** The name under which a package reference is looked up in the registry. *)
Definition module_name (module : module_ref) : string :=
  match module with
  | ByName s => s
  | ByObject m => __name__ m
  end.

(** The disk shows [root/name] and [root/name/version] as directories. *)
Definition both_directories (d : filesystem) (root : path) (name version : string) : Prop :=
  d !! (root // name) = Some Dir ∧ d !! (root // name // version) = Some Dir.

(** The calls made to the download collaborator between two worlds. *)
Definition new_downloads (w w' : World) : list download_call :=
  drop (length (downloads w)) (downloads w').

(** Between [w] and [w'] the download collaborator was only called with the
    cache root [root]. *)
Definition downloads_to (root : path) (w w' : World) : Prop :=
  ∃ l, downloads w' = downloads w ++ l ∧ Forall (fun c => dl_location c = root) l.

(** ** A concrete environment

    Stand-ins for the collaborators, used to run the code on explicit
    inputs.  The downloader follows its contract: it makes sure that
    [location/name/version] is a directory and puts one file in it, whatever
    the URL. *)
Module Demo.

Definition home : path := ["home"; "user"].

Definition numpy : PyModule :=
  mkModule "numpy" (Some "1.26.0") (Some "https://numpy.org/doc").

Definition yaml : PyModule :=
  mkModule "yaml" None None.

Definition demo_import (name : string) : result PyModule :=
  if String.eqb name "numpy" then inr numpy
  else if String.eqb name "yaml" then inr yaml
  else inl ImportError.

Definition demo_doc_url (name : string) : option string :=
  if String.eqb name "requests" then Some "https://requests.readthedocs.io"
  else None.

Definition demo_write (location : path) (name version : string)
    (url : option string) (d : filesystem) : option exn * filesystem :=
  let destination := location // name // version in
  (None, <[destination // "index.html" := File (default "" url)]> (make_dirs destination d)).

(** [s] cut at every occurrence of [sep]. *)
Fixpoint split_on (sep : Ascii.ascii) (s : string) : list string :=
  match s with
  | EmptyString => [EmptyString]
  | String c rest =>
      if Ascii.eqb c sep then EmptyString :: split_on sep rest
      else match split_on sep rest with
           | [] => [String c EmptyString]
           | x :: xs => String c x :: xs
           end
  end.

Definition parse_row (line : string) : option (string * string) :=
  match split_on ","%char line with
  | [name; url] => Some (name, url)
  | _ => None
  end.

(** A two-column file, one [name,url] row per line. *)
Definition demo_load_index (file : path) (d : filesystem) : result (gmap string string) :=
  match d !! file with
  | Some (File content) =>
      inr (list_to_map (omap parse_row (split_on "010"%char content)))
  | _ => inl (OtherError "cannot read the index file")
  end.

Definition demo_retire (e : Edition) (d : filesystem) : option exn * filesystem :=
  let destination := edition_home e // edition_version e in
  (None, filter (fun kv => ¬ (destination `prefix_of` kv.1)) d).

#[local] Instance env : Env := {|
  default_home := home;
  by_key := {[ "requests" := "2.31.0" ]};
  import_module := demo_import;
  get_doc_url := demo_doc_url;
  write_to_file_impl := demo_write;
  load_attending_index := {[ "foo" := "http://a" ]};
  load_index := demo_load_index;
  retire_impl := demo_retire
|}.

(** An empty disk with the home directory on it. *)
Definition disk0 : filesystem := make_dirs home ∅.

Definition world0 : World := mkWorld disk0 [].

End Demo.

(** * Properties *)

(** ** Running the monad *)

Lemma bind_ok {A B} (m : Py A) (k : A -> Py B) w a w1 :
  m w = (inr a, w1) → bind m k w = k a w1.
Proof. unfold bind. by intros ->. Qed.

Lemma bind_raise {A B} (m : Py A) (k : A -> Py B) w e w1 :
  m w = (inl e, w1) → bind m k w = (inl e, w1).
Proof. unfold bind. by intros ->. Qed.

Lemma is_dir_node_true o : is_dir_node o = true ↔ o = Some Dir.
Proof. destruct o as [[|c]|]; simpl; split; congruence. Qed.

(** ** Version resolution *)

Section Version.
Context `{!Env}.

Lemma get_module_version_self module v :
  attr_version module = Some v → get_module_version module = inr v.
Proof. unfold get_module_version. by intros ->. Qed.

Lemma get_module_version_registry module :
  attr_version module = None →
  get_module_version module = inr (default "latest" (by_key !! module_name module)).
Proof.
  unfold get_module_version, getitem, module_name. intros ->.
  destruct module as [s|m]; simpl;
    match goal with |- context [by_key !! ?k] => destruct (by_key !! k) end; done.
Qed.


Lemma resolve_version_total module version w :
  ∃ v, resolve_version module version w = (inr v, w).
Proof.
  destruct version as [v|]; simpl; [by exists v|].
  unfold lift. destruct (attr_version module) as [v|] eqn:Hattr.
  - exists v. by rewrite (get_module_version_self _ _ Hattr).
  - eexists. by rewrite (get_module_version_registry _ Hattr).
Qed.

(** On string-typed modules and a registry whose versions can all be
    read, the resolution on Python values is the typed one. *)
Lemma get_module_version_refines (module : module_ref) :
  Dynamic.get_module_version (registry_values by_key) (ref_values module) =
  match get_module_version module with
  | inr v => inr (Dynamic.PyStr v)
  | inl e => inl e
  end.
Proof.
  unfold Dynamic.get_module_version, get_module_version, getitem, registry_values.
  destruct module as [s|m]; simpl.
  - rewrite lookup_fmap. by destruct (by_key !! s).
  - destruct (__version__ m) as [v|]; simpl; [done|].
    rewrite lookup_fmap. by destruct (by_key !! __name__ m).
Qed.

End Version.


(** ** Membership and lookup *)

Lemma in_collection_eval self name version w :
  Library.in_collection self name version w =
  (inr (is_dir_node (fs w !! (location self // name)) &&
        is_dir_node (fs w !! (location self // name // version))), w).
Proof.
  unfold Library.in_collection, bind, is_dir, ret.
  by destruct (is_dir_node (fs w !! (location self // name))).
Qed.

(** C6.  [in_collection] returns true exactly when [root/name] and
    [root/name/version] are both directories; it changes nothing, and any
    world that agrees on these two facts gives the same answer. *)
Theorem in_collection_iff_directories (self : Library_t) (name version : string) (w : World) :
  ∃ b : bool,
    Library.in_collection self name version w = (inr b, w) ∧
    (b = true ↔ both_directories (fs w) (location self) name version) ∧
    (∀ w' : World,
       (both_directories (fs w') (location self) name version ↔
        both_directories (fs w) (location self) name version) →
       Library.in_collection self name version w' = (inr b, w')).
Proof.
  assert (Hiff : ∀ w0,
    is_dir_node (fs w0 !! (location self // name)) &&
    is_dir_node (fs w0 !! (location self // name // version)) = true ↔
    both_directories (fs w0) (location self) name version).
  { intros w0. unfold both_directories.
    by rewrite andb_true_iff, !is_dir_node_true. }
  eexists. split; [apply in_collection_eval|]. split; [apply Hiff|].
  intros w' Hagree. rewrite in_collection_eval. do 2 f_equal.
  apply eq_true_iff_eq. by rewrite !Hiff.
Qed.

Lemma get_edition_eval self name version w :
  Library.get_edition self name version w =
  (if is_dir_node (fs w !! (location self // name)) &&
      is_dir_node (fs w !! (location self // name // version))
   then inr (Module_getitem (location self) name version)
   else inl KeyError, w).
Proof.
  unfold Library.get_edition. rewrite (bind_ok _ _ _ _ _ (in_collection_eval _ _ _ _)).
  by destruct (_ && _).
Qed.

Lemma get_edition_ok_inv self name version w e w1 :
  Library.get_edition self name version w = (inr e, w1) →
  w1 = w ∧ e = Module_getitem (location self) name version ∧
  Library.in_collection self name version w = (inr true, w).
Proof.
  rewrite get_edition_eval, in_collection_eval.
  destruct (_ && _); intros [= <- <-]; done.
Qed.

Section Lookup.
Context `{!Env}.

(** C8.  For a pair that is not in the collection [get_edition] raises
    [KeyError], and so does [retire], which looks the edition up first;
    for a pair in the collection [get_edition] returns the edition handle. *)
Theorem get_edition_found_iff_in_collection
    (self : Library_t) (name version : string) (w : World) (b : bool) :
  Library.in_collection self name version w = (inr b, w) →
  if b
  then Library.get_edition self name version w =
       (inr (Module_getitem (location self) name version), w)
  else Library.get_edition self name version w = (inl KeyError, w) ∧
       Library.retire self name version w = (inl KeyError, w).
Proof.
  rewrite in_collection_eval. intros [= Hb].
  assert (Hget := get_edition_eval self name version w). rewrite Hb in Hget.
  destruct b; [done|]. split; [done|].
  unfold Library.retire. by rewrite (bind_raise _ _ _ _ _ Hget).
Qed.

(** C2.  After a successful [Library.fetch], fetching the same
    (name, version, url) again returns the edition handle of the pair and
    leaves the world as it is: the download collaborator is not called a
    second time. *)
Theorem fetch_again_no_download
    (self : Library_t) (name version : string) (url : option string)
    (w w1 : World) (e : Edition) :
  Library.fetch self name version url w = (inr e, w1) →
  Library.fetch self name version url w1 =
    (inr (Module_getitem (location self) name version), w1) ∧
  e = Module_getitem (location self) name version ∧
  new_downloads w1 (Library.fetch self name version url w1).2 = [].
Proof.
  intros Hfirst.
  assert (Hin : Library.in_collection self name version w1 = (inr true, w1) ∧
                e = Module_getitem (location self) name version).
  { revert Hfirst. unfold Library.fetch.
    rewrite (bind_ok _ _ _ _ _ (in_collection_eval _ _ _ _)).
    destruct (_ && _); simpl.
    - unfold bind at 1, ret at 1. intros Hget.
      by destruct (get_edition_ok_inv _ _ _ _ _ _ Hget) as (-> & -> & ?).
    - unfold bind at 1.
      destruct (Library._add_project self name version url w) as [[ex|[]] w2]; [done|].
      intros Hget.
      by destruct (get_edition_ok_inv _ _ _ _ _ _ Hget) as (-> & -> & ?). }
  destruct Hin as [Hin ->].
  assert (Hsecond : Library.fetch self name version url w1 =
                    (inr (Module_getitem (location self) name version), w1)).
  { unfold Library.fetch. rewrite (bind_ok _ _ _ _ _ Hin). simpl.
    unfold bind at 1, ret at 1. rewrite get_edition_eval.
    rewrite in_collection_eval in Hin. injection Hin as ->. done. }
  rewrite Hsecond. split; [done|]. split; [done|].
  unfold new_downloads. simpl. apply drop_all.
Qed.

End Lookup.

(** ** Joining paths *)

Lemma split_slash_plain s : has_separator s = false → split_slash s = [s].
Proof.
  induction s as [|c s IH]; simpl; [done|].
  destruct (Ascii.eqb c "/"); simpl; [done|].
  intros Hs. by rewrite (IH Hs).
Qed.

(** On a plain component [pathlib]'s operator appends that component. *)
Lemma pathlib_join_plain (p : path) (s : string) :
  is_plain s = true → pathlib_join p s = p // s.
Proof.
  unfold is_plain. rewrite !andb_true_iff, !negb_true_iff.
  intros [[[Hempty Hdot] _] Hsep].
  unfold pathlib_join, path_parts, joinpath.
  rewrite (split_slash_plain _ Hsep). simpl.
  unfold kept_part. rewrite Hempty, Hdot. simpl.
  destruct s as [|c s]; simpl in *; [done|].
  by destruct (Ascii.eqb c "/").
Qed.

(** ** Directory creation *)

Lemma foldr_insert_lookup (l : list path) (d : filesystem) (q : path) :
  foldr (fun q acc => <[q := Dir]> acc) d l !! q =
  if bool_decide (q ∈ l) then Some Dir else d !! q.
Proof.
  induction l as [|p l IH]; simpl; [done|].
  destruct (decide (p = q)) as [->|Hne].
  - rewrite lookup_insert_eq.
    rewrite bool_decide_eq_true_2; [done|]. by left.
  - rewrite lookup_insert_ne by done. rewrite IH.
    apply (f_equal (fun b : bool => if b then Some Dir else d !! q)).
    apply bool_decide_ext. rewrite elem_of_cons.
    split; [by right|]. by intros [->|?].
Qed.

Lemma make_dirs_lookup_in p d q :
  q ∈ ancestors p ++ [p] → make_dirs p d !! q = Some Dir.
Proof.
  intros Hin. unfold make_dirs. rewrite foldr_insert_lookup.
  by rewrite bool_decide_eq_true_2.
Qed.

Lemma make_dirs_lookup_notin p d q :
  q ∉ ancestors p ++ [p] → make_dirs p d !! q = d !! q.
Proof.
  intros Hin. unfold make_dirs. rewrite foldr_insert_lookup.
  by rewrite bool_decide_eq_false_2.
Qed.

Lemma ancestors_length p q : q ∈ ancestors p → length q < length p.
Proof.
  revert q. induction p as [|c p IH]; intros q; simpl.
  - by intros ?%elem_of_nil.
  - rewrite elem_of_cons, list_elem_of_fmap.
    intros [->|(q' & -> & Hq')]; simpl; [lia|].
    apply IH in Hq'. lia.
Qed.

(** A path below [p] is neither [p] nor one of its ancestors. *)
Lemma child_not_created p s : p // s ∉ ancestors p ++ [p].
Proof.
  rewrite elem_of_app, list_elem_of_singleton. unfold joinpath.
  intros [Hin%ancestors_length|Heq].
  - rewrite length_app in Hin. simpl in Hin. lia.
  - apply (f_equal length) in Heq. rewrite length_app in Heq. simpl in Heq. lia.
Qed.

Lemma mkdir_parents_fresh p w :
  fs w !! p = None →
  Forall (fun q => is_file (fs w !! q) = false) (ancestors p) →
  mkdir_parents p w = (inr tt, mkWorld (make_dirs p (fs w)) (downloads w)).
Proof.
  intros Hnone Hanc. unfold mkdir_parents.
  destruct (list_find _ _) as [[i q]|] eqn:Hfind.
  - apply list_find_Some in Hfind as (Hq & Hfile & _).
    apply list_elem_of_lookup_2 in Hq.
    rewrite Forall_forall in Hanc. apply Hanc in Hq. congruence.
  - rewrite bool_decide_eq_false_2; [done|].
    rewrite Hnone. by intros [? ?].
Qed.


Lemma mkdir_parents_trace p w r w' :
  mkdir_parents p w = (r, w') → downloads w' = downloads w.
Proof.
  unfold mkdir_parents.
  destruct (list_find _ _) as [[i q]|]; [by intros [= <- <-]|].
  destruct (bool_decide _); by intros [= <- <-].
Qed.

Lemma mkdir_parents_frame p w r w' q :
  mkdir_parents p w = (r, w') → q ∉ ancestors p ++ [p] → fs w' !! q = fs w !! q.
Proof.
  unfold mkdir_parents.
  destruct (list_find _ _) as [[i q']|]; [by intros [= <- <-]|].
  destruct (bool_decide _); intros [= <- <-]; [done|].
  intros Hq. simpl. by apply make_dirs_lookup_notin.
Qed.

(** [Library(home)] answers a library rooted at [home/.attending], calls no
    collaborator, and touches nothing below the root. *)
Lemma Library_new_inv home w lib w1 :
  Library.new home w = (inr lib, w1) →
  lib = mkLibrary (home // ".attending") ∧
  downloads w1 = downloads w ∧
  ∀ s, fs w1 !! (home // ".attending" // s) = fs w !! (home // ".attending" // s).
Proof.
  unfold Library.new, bind, path_exists, ret.
  destruct (bool_decide _); simpl.
  - by intros [= <- <-].
  - destruct (mkdir_parents _ w) as [[ex|[]] w2] eqn:Hmk; [done|].
    intros [= <- <-]. split; [done|]. split; [by eapply mkdir_parents_trace|].
    intros s. eapply mkdir_parents_frame; [done|]. apply child_not_created.
Qed.

Lemma Library_new_trace home w r w1 :
  Library.new home w = (r, w1) → downloads w1 = downloads w.
Proof.
  unfold Library.new, bind, path_exists, ret.
  destruct (bool_decide _); simpl.
  - by intros [= <- <-].
  - destruct (mkdir_parents _ w) as [[ex|[]] w2] eqn:Hmk;
      intros [= <- <-]; by eapply mkdir_parents_trace.
Qed.

(** ** Adding a project *)

Section AddProject.
Context `{!Env}.

Lemma write_to_file_trace location name version url w r w' :
  write_to_file location name version url w = (r, w') →
  downloads w' = downloads w ++ [DownloadCall location name version url].
Proof.
  unfold write_to_file.
  destruct (write_to_file_impl _ _ _ _ _) as [ex d]. by intros [= <- <-].
Qed.

Lemma add_project_eval self name version url w :
  Library._add_project self name version url w =
  if bool_decide (is_Some (fs w !! (location self // name // version)))
  then (inl (FileExistsError (location self // name // version)), w)
  else (mkdir_parents (location self // name // version) ;;;
        write_to_file (location self) name version url) w.
Proof.
  unfold Library._add_project, bind at 1, path_exists. cbv zeta.
  by destruct (bool_decide _).
Qed.


End AddProject.

(** ** The fetch variants *)

Lemma bind_inv {A B} (m : Py A) (k : A -> Py B) w r w' :
  bind m k w = (r, w') →
  (∃ e, m w = (inl e, w') ∧ r = inl e) ∨
  (∃ a w1, m w = (inr a, w1) ∧ k a w1 = (r, w')).
Proof.
  unfold bind. destruct (m w) as [[e|a] w1].
  - intros [= <- <-]. left. by exists e.
  - intros Hk. right. by exists a, w1.
Qed.

Lemma bind_inv_ok {A B} (m : Py A) (k : A -> Py B) w b w' :
  bind m k w = (inr b, w') →
  ∃ a w1, m w = (inr a, w1) ∧ k a w1 = (inr b, w').
Proof. intros [(e & _ & [=])|Hok]%bind_inv. done. Qed.

Lemma downloads_to_refl root w w' :
  downloads w' = downloads w → downloads_to root w w'.
Proof. intros Heq. exists []. by rewrite app_nil_r. Qed.

Lemma downloads_to_trans root w1 w2 w3 :
  downloads_to root w1 w2 → downloads_to root w2 w3 → downloads_to root w1 w3.
Proof.
  intros (l1 & H1 & Hl1) (l2 & H2 & Hl2). exists (l1 ++ l2).
  split; [by rewrite H2, H1, app_assoc|]. by apply Forall_app.
Qed.

Lemma downloads_to_new root w w' :
  downloads_to root w w' →
  Forall (fun c => dl_location c = root) (new_downloads w w').
Proof.
  intros (l & Heq & Hl). unfold new_downloads. by rewrite Heq, drop_app_length.
Qed.

Section Fetch.
Context `{!Env}.

Lemma write_to_file_downloads_to location name version url w r w' :
  write_to_file location name version url w = (r, w') → downloads_to location w w'.
Proof.
  intros Hw%write_to_file_trace. eexists. split; [done|]. by apply Forall_singleton.
Qed.

Lemma add_project_trace self name version url w r w' :
  Library._add_project self name version url w = (r, w') →
  downloads_to (location self) w w'.
Proof.
  rewrite add_project_eval. destruct (bool_decide _).
  - intros [= <- <-]. by apply downloads_to_refl.
  - intros [(e & Hmk & _)|([] & w1 & Hmk & Hw)]%bind_inv.
    + apply downloads_to_refl. by eapply mkdir_parents_trace.
    + eapply downloads_to_trans; [|by eapply write_to_file_downloads_to].
      apply downloads_to_refl. by eapply mkdir_parents_trace.
Qed.

Lemma get_edition_trace self name version w r w' :
  Library.get_edition self name version w = (r, w') → w' = w.
Proof. rewrite get_edition_eval. by intros [= <- <-]. Qed.

Lemma Library_fetch_trace self name version url w r w' :
  Library.fetch self name version url w = (r, w') →
  downloads_to (location self) w w'.
Proof.
  unfold Library.fetch. rewrite (bind_ok _ _ _ _ _ (in_collection_eval _ _ _ _)).
  destruct (_ && _); simpl.
  - intros [(e & [=] & _)|([] & w1 & [= <-] & ->%get_edition_trace)]%bind_inv.
    by apply downloads_to_refl.
  - intros [(e & Hadd & _)|([] & w1 & Hadd & ->%get_edition_trace)]%bind_inv;
      by eapply add_project_trace.
Qed.

Lemma fetch_via_module_trace module version home w r w' :
  fetch_via_module module version home w = (r, w') →
  downloads_to (home // ".attending") w w'.
Proof.
  unfold fetch_via_module.
  intros [(e & Hnew & _)|(lib & w1 & Hnew & Hrest)]%bind_inv.
  { apply downloads_to_refl. by eapply Library_new_trace. }
  destruct (Library_new_inv _ _ _ _ Hnew) as (-> & Htrace & _).
  apply downloads_to_trans with w1; [by apply downloads_to_refl|].
  destruct (resolve_version_total (ByObject module) version w1) as [v Hv].
  rewrite (bind_ok _ _ _ _ _ Hv) in Hrest.
  apply bind_inv in Hrest as [(e & Hstep & _)|([] & w2 & Hstep & ->%get_edition_trace)].
  - destruct (__doc_url__ module) as [doc_url|].
    + apply bind_inv in Hstep as [(e' & Hf & _)|(e' & w3 & Hf & [= <-])];
        by apply Library_fetch_trace in Hf.
    + by apply write_to_file_downloads_to in Hstep.
  - destruct (__doc_url__ module) as [doc_url|].
    + apply bind_inv in Hstep as [(e' & Hf & [=])|(e' & w3 & Hf & [= <-])].
      by apply Library_fetch_trace in Hf.
    + by apply write_to_file_downloads_to in Hstep.
Qed.

Lemma fetch_via_module_ok_inv module version home w e w' :
  fetch_via_module module version home w = (inr e, w') →
  edition_home e = home // ".attending" // __name__ module.
Proof.
  unfold fetch_via_module.
  intros (lib & w1 & Hnew & Hrest)%bind_inv_ok.
  destruct (Library_new_inv _ _ _ _ Hnew) as (-> & _ & _).
  apply bind_inv_ok in Hrest as (v & w2 & _ & Hrest).
  apply bind_inv_ok in Hrest as ([] & w3 & _ & Hget).
  by apply get_edition_ok_inv in Hget as (_ & -> & _).
Qed.

(** C1.  When the import fails and the fallback resolver knows no URL,
    [fetch_via_name(name, url=None)] raises [TypeError], not the
    [RuntimeError] of [options_exhausted]: the error constructor takes one
    argument and is called with two.  Apart from the cache root that
    [Library(home)] makes sure of, the disk is unchanged (no directory is
    created for the name) and the download collaborator is not called. *)
Theorem fetch_via_name_exhausted_raises_TypeError
    (name : string) (version : option string) (home : path)
    (w w1 : World) (lib : Library_t) :
  import_module name = inl ImportError →
  get_doc_url name = None →
  Library.new home w = (inr lib, w1) →
  (∃ msg, fetch_via_name name version None home w = (inl (TypeError msg), w1)) ∧
  (∀ s, fs w1 !! (home // ".attending" // name // s) =
        fs w !! (home // ".attending" // name // s)) ∧
  fs w1 !! (home // ".attending" // name) = fs w !! (home // ".attending" // name) ∧
  downloads w1 = downloads w.
Proof.
  intros Himport Hurl Hnew.
  destruct (Library_new_inv _ _ _ _ Hnew) as (-> & Htrace & Hframe).
  split; [|split; [|by split]].
  - unfold fetch_via_name. rewrite (bind_ok _ _ _ _ _ Hnew).
    destruct (resolve_version_total (ByName name) version w1) as [v Hv].
    rewrite (bind_ok _ _ _ _ _ Hv). rewrite Himport, Hurl.
    eexists. reflexivity.
  - intros s. destruct (Library.new home w) as [r w2] eqn:Hn.
    injection Hnew as -> ->. revert Hn. unfold Library.new, bind, path_exists, ret.
    destruct (bool_decide _); simpl; [by intros [= <-]|].
    destruct (mkdir_parents _ w) as [[ex|[]] w2] eqn:Hmk; [done|].
    intros [= <-]. eapply mkdir_parents_frame; [done|].
    rewrite elem_of_app, list_elem_of_singleton. unfold joinpath.
    intros [Hin%ancestors_length|Heq%(f_equal length)];
      rewrite !length_app in *; simpl in *; lia.
Qed.

(** C4.  For a module without [__doc_url__], when the fallback resolver
    knows no URL, [fetch_via_module] does not fail by itself: it calls the
    download collaborator with the absent URL and then looks the edition
    up. *)
Theorem fetch_via_module_downloads_absent_url
    (module : PyModule) (version : option string) (home : path)
    (w w1 : World) (lib : Library_t) :
  __doc_url__ module = None →
  get_doc_url (__name__ module) = None →
  Library.new home w = (inr lib, w1) →
  ∃ v : string,
    resolve_version (ByObject module) version w1 = (inr v, w1) ∧
    fetch_via_module module version home w =
      (write_to_file (home // ".attending") (__name__ module) v None ;;;
       Library.get_edition lib (__name__ module) v) w1 ∧
    downloads (fetch_via_module module version home w).2 =
      downloads w ++ [DownloadCall (home // ".attending") (__name__ module) v None].
Proof.
  intros Hdoc Hurl Hnew.
  destruct (Library_new_inv _ _ _ _ Hnew) as (-> & Htrace & _).
  destruct (resolve_version_total (ByObject module) version w1) as [v Hv].
  exists v. split; [done|].
  assert (Heq : fetch_via_module module version home w =
    (write_to_file (home // ".attending") (__name__ module) v None ;;;
     Library.get_edition (mkLibrary (home // ".attending")) (__name__ module) v) w1).
  { unfold fetch_via_module. rewrite (bind_ok _ _ _ _ _ Hnew).
    rewrite (bind_ok _ _ _ _ _ Hv). by rewrite Hdoc, Hurl. }
  split; [done|]. rewrite Heq.
  destruct (bind _ _ w1) as [r w'] eqn:Hrun. simpl.
  apply bind_inv in Hrun as [(e & Hw & _)|([] & w2 & Hw & ->%get_edition_trace)];
    apply write_to_file_trace in Hw; by rewrite Hw, Htrace.
Qed.

(** C5.  [fetch_via_local_index(name, home)] looks for the override file
    under the default home, whatever [home] is: when there is no
    [index.csv] under the default home's cache root, the URL of the baked-in
    index is used, also when [home/.attending/index.csv] has an entry for
    the name. *)
Theorem fetch_via_local_index_reads_default_home
    (name : string) (home : path) (w : World) (url : string) :
  fs w !! (default_home // ".attending" // "index.csv") = None →
  load_attending_index !! name = Some url →
  fetch_via_local_index name home w =
    (_ <- fetch_via_name name None (Some url) home ;; ret tt) w.
Proof.
  intros Hnone Hbaked. unfold fetch_via_local_index. cbv zeta.
  unfold bind at 1, path_exists. rewrite Hnone.
  rewrite bool_decide_eq_false_2 by (by intros [? ?]).
  unfold bind at 1, ret at 1. by rewrite Hbaked.
Qed.

(** The override file under the default home does win over the baked-in
    index. *)
Lemma fetch_via_local_index_local_wins name home w local url :
  is_Some (fs w !! (default_home // ".attending" // "index.csv")) →
  load_index (default_home // ".attending" // "index.csv") (fs w) = inr local →
  local !! name = Some url →
  fetch_via_local_index name home w =
    (_ <- fetch_via_name name None (Some url) home ;; ret tt) w.
Proof.
  intros Hsome Hload Hlocal. unfold fetch_via_local_index. cbv zeta.
  unfold bind at 1, path_exists. rewrite bool_decide_eq_true_2 by done.
  unfold bind at 1, read_index, bind at 1. rewrite Hload. unfold ret at 1.
  unfold dict_update. by rewrite (lookup_union_Some_l _ _ _ _ Hlocal).
Qed.

(** C10.  With no URL given and an importable package,
    [fetch_via_name(name, version, home=home)] builds the library under
    [home] and then runs [fetch_via_module] on the imported module with the
    default home: the edition it returns lives under the default home's
    cache root, and every download it makes goes there. *)
Theorem fetch_via_name_importable_uses_default_home
    (name : string) (version : option string) (home : path)
    (module : PyModule) (w : World) :
  import_module name = inr module →
  fetch_via_name name version None home w =
    (_ <- Library.new home ;;
     v <- resolve_version (ByName name) version ;;
     fetch_via_module module (Some v) default_home) w ∧
  (∀ e w', fetch_via_name name version None home w = (inr e, w') →
     edition_home e = default_home // ".attending" // __name__ module ∧
     Forall (fun c => dl_location c = default_home // ".attending")
            (new_downloads w w')).
Proof.
  intros Himport.
  assert (Heq : fetch_via_name name version None home w =
    (_ <- Library.new home ;;
     v <- resolve_version (ByName name) version ;;
     fetch_via_module module (Some v) default_home) w).
  { unfold fetch_via_name. by rewrite Himport. }
  split; [done|]. intros e w'. rewrite Heq.
  intros (lib & w1 & Hnew & Hrest)%bind_inv_ok.
  apply bind_inv_ok in Hrest as (v & w2 & Hv & Hmod).
  destruct (resolve_version_total (ByName name) version w1) as [v' Hv'].
  rewrite Hv' in Hv. injection Hv as <- <-.
  split; [by eapply fetch_via_module_ok_inv|].
  apply downloads_to_new. apply downloads_to_trans with w1.
  - apply downloads_to_refl. by eapply Library_new_trace.
  - by eapply fetch_via_module_trace.
Qed.

End Fetch.

(** * Further properties of the library *)

(** ** The trace between two worlds *)

Lemma new_downloads_same w w' :
  downloads w' = downloads w → new_downloads w w' = [].
Proof. intros Heq. unfold new_downloads. rewrite Heq. apply drop_all. Qed.

Lemma new_downloads_app w w' l :
  downloads w' = downloads w ++ l → new_downloads w w' = l.
Proof. intros Heq. unfold new_downloads. by rewrite Heq, drop_app_length. Qed.

Lemma self_or_ancestor p : p ∈ ancestors p ++ [p].
Proof. rewrite elem_of_app, list_elem_of_singleton. by right. Qed.

(** ** The constructor *)

Lemma Library_new_eval home w :
  Library.new home w =
  if bool_decide (is_Some (fs w !! (home // ".attending")))
  then (inr (mkLibrary (home // ".attending")), w)
  else match mkdir_parents (home // ".attending") w with
       | (inr _, w1) => (inr (mkLibrary (home // ".attending")), w1)
       | (inl e, w1) => (inl e, w1)
       end.
Proof.
  unfold Library.new, bind at 1, path_exists. cbv zeta.
  destruct (bool_decide _); simpl; [done|].
  unfold bind, ret. by destruct (mkdir_parents _ w) as [[e|[]] w1].
Qed.

Lemma mkdir_parents_absent_inv p w r w' :
  fs w !! p = None →
  mkdir_parents p w = (r, w') →
  (r = inr tt ∧ w' = mkWorld (make_dirs p (fs w)) (downloads w)) ∨
  (w' = w ∧ ∃ q, r = inl (NotADirectoryError q) ∧ q ∈ ancestors p ∧
                 is_file (fs w !! q) = true).
Proof.
  intros Hnone. unfold mkdir_parents.
  destruct (list_find _ _) as [[i q]|] eqn:Hfind.
  - apply list_find_Some in Hfind as (Hq & Hfile & _).
    apply list_elem_of_lookup_2 in Hq.
    intros [= <- <-]. right. split; [done|]. by exists q.
  - rewrite bool_decide_eq_false_2 by (rewrite Hnone; by intros [? ?]).
    intros [= <- <-]. by left.
Qed.

Lemma Library_new_ok_exists home w lib w1 :
  Library.new home w = (inr lib, w1) →
  lib = mkLibrary (home // ".attending") ∧ is_Some (fs w1 !! (home // ".attending")).
Proof.
  rewrite Library_new_eval. case_bool_decide as Hex.
  - by intros [= <- <-].
  - destruct (mkdir_parents _ w) as [[e|[]] w2] eqn:Hmk; [done|].
    intros [= <- <-]. split; [done|].
    apply eq_None_not_Some in Hex.
    destruct (mkdir_parents_absent_inv _ _ _ _ Hex Hmk) as [[_ ->]|[_ (q & [=] & _)]].
    simpl. rewrite make_dirs_lookup_in; [done|apply self_or_ancestor].
Qed.


(** X2.  Building the library a second time over the same home changes
    nothing and gives the same library. *)
Theorem Library_new_idempotent (home : path) (w w1 : World) (lib : Library_t) :
  Library.new home w = (inr lib, w1) →
  Library.new home w1 = (inr lib, w1).
Proof.
  intros [-> Hex]%Library_new_ok_exists.
  rewrite Library_new_eval. by rewrite bool_decide_eq_true_2.
Qed.

(** ** Fetching through the library *)

Section LibraryFetch.
Context `{!Env}.

Lemma Library_fetch_ok_inv self name version url w e w' :
  Library.fetch self name version url w = (inr e, w') →
  e = Module_getitem (location self) name version ∧
  Library.in_collection self name version w' = (inr true, w').
Proof.
  unfold Library.fetch.
  intros (b & w1 & _ & Hrest)%bind_inv_ok.
  apply bind_inv_ok in Hrest as ([] & w2 & _ & Hget).
  by apply get_edition_ok_inv in Hget as (-> & -> & ?).
Qed.

Lemma Library_fetch_cached self name version url w :
  Library.in_collection self name version w = (inr true, w) →
  Library.fetch self name version url w =
    (inr (Module_getitem (location self) name version), w).
Proof.
  intros Hin. unfold Library.fetch. rewrite (bind_ok _ _ _ _ _ Hin). simpl.
  unfold bind at 1, ret at 1. rewrite get_edition_eval.
  rewrite in_collection_eval in Hin. by injection Hin as ->.
Qed.

Lemma in_collection_absent self name version w :
  fs w !! (location self // name // version) = None →
  Library.in_collection self name version w = (inr false, w).
Proof.
  intros Hnone. rewrite in_collection_eval, Hnone. simpl. by rewrite andb_false_r.
Qed.

Lemma in_collection_present self name version w :
  fs w !! (location self // name) = Some Dir →
  fs w !! (location self // name // version) = Some Dir →
  Library.in_collection self name version w = (inr true, w).
Proof. intros H1 H2. by rewrite in_collection_eval, H1, H2. Qed.

(** What [Library.fetch] does for a pair whose destination is absent and
    can be created: the tree is made, the downloader runs, and its outcome
    decides. *)
Lemma Library_fetch_fresh_eval self name version url w ex d :
  let destination := location self // name // version in
  fs w !! destination = None →
  Forall (fun q => is_file (fs w !! q) = false) (ancestors destination) →
  write_to_file_impl (location self) name version url (make_dirs destination (fs w)) = (ex, d) →
  Library.fetch self name version url w =
    match ex with
    | Some e =>
        (inl e, mkWorld d (downloads w ++ [DownloadCall (location self) name version url]))
    | None =>
        Library.get_edition self name version
          (mkWorld d (downloads w ++ [DownloadCall (location self) name version url]))
    end.
Proof.
  intros destination Hnone Hanc Himpl. unfold Library.fetch.
  rewrite (bind_ok _ _ _ _ _ (in_collection_absent _ _ _ _ Hnone)). simpl.
  unfold bind at 1. rewrite add_project_eval. fold destination.
  rewrite bool_decide_eq_false_2 by (rewrite Hnone; by intros [? ?]).
  rewrite (bind_ok _ _ _ _ _ (mkdir_parents_fresh _ _ Hnone Hanc)).
  unfold write_to_file. simpl. rewrite Himpl. by destruct ex.
Qed.

(** X3.  For a pair that is in the collection, [Library.fetch] returns the
    edition handle and changes nothing, whatever URL it is given: the URL
    of a cached pair is never looked at. *)
Theorem Library_fetch_cached_ignores_url
    (self : Library_t) (name version : string) (w : World) :
  Library.in_collection self name version w = (inr true, w) →
  ∀ url : option string,
    Library.fetch self name version url w =
      (inr (Module_getitem (location self) name version), w).
Proof. intros Hin url. by apply Library_fetch_cached. Qed.

(** X4.  When [Library.fetch] returns, the pair is in the collection, the
    handle is the one of the pair, and [get_edition] finds it again. *)
Theorem Library_fetch_ok_in_collection
    (self : Library_t) (name version : string) (url : option string)
    (w w' : World) (e : Edition) :
  Library.fetch self name version url w = (inr e, w') →
  Library.in_collection self name version w' = (inr true, w') ∧
  e = Module_getitem (location self) name version ∧
  Library.get_edition self name version w' = (inr e, w').
Proof.
  intros [-> Hin]%Library_fetch_ok_inv. split; [done|]. split; [done|].
  rewrite get_edition_eval. rewrite in_collection_eval in Hin.
  by injection Hin as ->.
Qed.

(** X5.  When the pair is not in the collection but something is already
    at [root/name/version] (a regular file, say), [Library.fetch] raises
    [FileExistsError], changes nothing and calls no collaborator. *)
Theorem Library_fetch_conflict
    (self : Library_t) (name version : string) (url : option string) (w : World) :
  Library.in_collection self name version w = (inr false, w) →
  is_Some (fs w !! (location self // name // version)) →
  Library.fetch self name version url w =
    (inl (FileExistsError (location self // name // version)), w).
Proof.
  intros Hin Hsome. unfold Library.fetch. rewrite (bind_ok _ _ _ _ _ Hin). simpl.
  unfold bind at 1. rewrite add_project_eval.
  by rewrite bool_decide_eq_true_2.
Qed.

(** X6.  One call of [Library.fetch] calls the download collaborator at
    most once, and then with its own root and the (name, version, url) it
    was given; for a pair in the collection it does not call it. *)
Theorem Library_fetch_at_most_one_download
    (self : Library_t) (name version : string) (url : option string)
    (w w' : World) (r : result Edition) :
  Library.fetch self name version url w = (r, w') →
  (new_downloads w w' = [] ∨
   new_downloads w w' = [DownloadCall (location self) name version url]) ∧
  (Library.in_collection self name version w = (inr true, w) →
   new_downloads w w' = []).
Proof.
  intros Hfetch. split.
  - revert Hfetch. unfold Library.fetch.
    rewrite (bind_ok _ _ _ _ _ (in_collection_eval _ _ _ _)).
    destruct (_ && _); simpl.
    + intros [(e & [=] & _)|([] & w1 & [= <-] & ->%get_edition_trace)]%bind_inv.
      left. by apply new_downloads_same.
    + assert (Hadd : ∀ r1 w1, Library._add_project self name version url w = (r1, w1) →
        new_downloads w w1 = [] ∨
        new_downloads w w1 = [DownloadCall (location self) name version url]).
      { intros r1 w1. rewrite add_project_eval. destruct (bool_decide _).
        - intros [= <- <-]. left. by apply new_downloads_same.
        - intros [(e & Hmk & _)|([] & w2 & Hmk & Hw)]%bind_inv.
          + left. apply new_downloads_same. by eapply mkdir_parents_trace.
          + right. apply new_downloads_app. apply write_to_file_trace in Hw.
            apply mkdir_parents_trace in Hmk. by rewrite Hw, Hmk. }
      intros [(e & Hrun & _)|([] & w1 & Hrun & ->%get_edition_trace)]%bind_inv;
        by eapply Hadd.
  - intros Hin. rewrite (Library_fetch_cached _ _ _ _ _ Hin) in Hfetch.
    injection Hfetch as <- <-. by apply new_downloads_same.
Qed.

(** X7.  For a name and a version that are plain path components, under
    a cache root of plain components: a download that raises leaves the
    freshly made directories behind.  [Library.fetch] propagates the
    exception, and unless the downloader removed the directories the pair
    then counts as cached, so that the next [Library.fetch] returns the
    edition without downloading anything. *)
Theorem Library_fetch_failed_download_leaves_entry
    (self : Library_t) (name version : string) (url : option string)
    (w : World) (e : exn) (d : filesystem) :
  let destination := location self // name // version in
  let w1 := mkWorld d (downloads w ++ [DownloadCall (location self) name version url]) in
  plain_path (location self) →
  is_plain name = true →
  is_plain version = true →
  fs w !! destination = None →
  Forall (fun q => is_file (fs w !! q) = false) (ancestors destination) →
  write_to_file_impl (location self) name version url (make_dirs destination (fs w)) =
    (Some e, d) →
  d !! (location self // name) = Some Dir →
  d !! destination = Some Dir →
  pathlib_join (pathlib_join (location self) name) version = destination ∧
  Library.fetch self name version url w = (inl e, w1) ∧
  ∀ url' : option string,
    Library.fetch self name version url' w1 =
      (inr (Module_getitem (location self) name version), w1).
Proof.
  intros destination w1 _ Hname Hversion Hnone Hanc Himpl Hdir1 Hdir2.
  split; [by rewrite (pathlib_join_plain _ _ Hname), (pathlib_join_plain _ _ Hversion)|].
  split.
  - by rewrite (Library_fetch_fresh_eval _ _ _ _ _ _ _ Hnone Hanc Himpl).
  - intros url'. apply Library_fetch_cached. by apply in_collection_present.
Qed.

(** X8.  For a name and a version that are plain path components, under
    a cache root of plain components: when the destination is absent and
    not below a regular file, with a downloader that returns and leaves
    [root/name] and [root/name/version] as directories, [Library.fetch]
    returns the edition handle after exactly one download, and the disk is
    the one the downloader left. *)
Theorem Library_fetch_fresh
    (self : Library_t) (name version : string) (url : option string)
    (w : World) (d : filesystem) :
  let destination := location self // name // version in
  plain_path (location self) →
  is_plain name = true →
  is_plain version = true →
  fs w !! destination = None →
  Forall (fun q => is_file (fs w !! q) = false) (ancestors destination) →
  write_to_file_impl (location self) name version url (make_dirs destination (fs w)) =
    (None, d) →
  d !! (location self // name) = Some Dir →
  d !! destination = Some Dir →
  pathlib_join (pathlib_join (location self) name) version = destination ∧
  Library.fetch self name version url w =
    (inr (Module_getitem (location self) name version),
     mkWorld d (downloads w ++ [DownloadCall (location self) name version url])).
Proof.
  intros destination _ Hname Hversion Hnone Hanc Himpl Hdir1 Hdir2.
  split; [by rewrite (pathlib_join_plain _ _ Hname), (pathlib_join_plain _ _ Hversion)|].
  rewrite (Library_fetch_fresh_eval _ _ _ _ _ _ _ Hnone Hanc Himpl).
  rewrite get_edition_eval. simpl. fold destination. by rewrite Hdir1, Hdir2.
Qed.

(** X9.  Retiring a cached pair hands its edition to [Edition.retire] and
    calls no download; once that has removed [root/name/version], the pair
    is out of the collection and [get_edition] raises [KeyError] again. *)
Theorem retire_then_not_found
    (self : Library_t) (name version : string) (w : World) (d : filesystem) :
  let w1 := mkWorld d (downloads w) in
  Library.in_collection self name version w = (inr true, w) →
  retire_impl (Module_getitem (location self) name version) (fs w) = (None, d) →
  d !! (location self // name // version) = None →
  Library.retire self name version w = (inr tt, w1) ∧
  Library.in_collection self name version w1 = (inr false, w1) ∧
  Library.get_edition self name version w1 = (inl KeyError, w1).
Proof.
  intros w1 Hin Himpl Hgone.
  assert (Hout : Library.in_collection self name version w1 = (inr false, w1))
    by by apply in_collection_absent.
  split; [|split; [done|]].
  - unfold Library.retire.
    assert (Hget : Library.get_edition self name version w =
                   (inr (Module_getitem (location self) name version), w)).
    { rewrite get_edition_eval. rewrite in_collection_eval in Hin.
      by injection Hin as ->. }
    rewrite (bind_ok _ _ _ _ _ Hget). unfold Edition_retire. by rewrite Himpl.
  - rewrite get_edition_eval. rewrite in_collection_eval in Hout.
    injection Hout as Hout. subst w1. simpl in *. by rewrite Hout.
Qed.

End LibraryFetch.

(** ** The top-level functions *)

Lemma new_downloads_shift w w1 w' :
  downloads w1 = downloads w → new_downloads w w' = new_downloads w1 w'.
Proof. intros Heq. unfold new_downloads. by rewrite Heq. Qed.

Lemma Library_new_frame home w r w1 q :
  Library.new home w = (r, w1) →
  q ∉ ancestors (home // ".attending") ++ [home // ".attending"] →
  fs w1 !! q = fs w !! q.
Proof.
  rewrite Library_new_eval. destruct (bool_decide _); [by intros [= <- <-]|].
  destruct (mkdir_parents _ w) as [[e|[]] w2] eqn:Hmk;
    intros [= <- <-] Hq; by eapply mkdir_parents_frame.
Qed.

Lemma get_edition_present self name version w :
  Library.in_collection self name version w = (inr true, w) →
  Library.get_edition self name version w =
    (inr (Module_getitem (location self) name version), w).
Proof.
  intros Hin. unfold Library.get_edition. by rewrite (bind_ok _ _ _ _ _ Hin).
Qed.

Section TopLevel.
Context `{!Env}.

(** The version a call works with: the one given, else the module's own
    [__version__], else the registry's for the name, else ["latest"]. *)
Definition expected_version (module : module_ref) (version : option string) : string :=
  match version with
  | Some v => v
  | None =>
      match attr_version module with
      | Some v => v
      | None => default "latest" (by_key !! module_name module)
      end
  end.

Lemma resolve_version_eval module version w :
  resolve_version module version w = (inr (expected_version module version), w).
Proof.
  destruct version as [v|]; simpl; [done|]. unfold lift.
  destruct (attr_version module) as [v|] eqn:Hattr.
  - by rewrite (get_module_version_self _ _ Hattr).
  - by rewrite (get_module_version_registry _ Hattr).
Qed.


Lemma can_monitor_true module :
  can_monitor module = true → ∃ url, __doc_url__ module = Some url.
Proof. unfold can_monitor. by intros Hb%bool_decide_eq_true. Qed.

Lemma Library_fetch_new_downloads self name version url w r w' :
  Library.fetch self name version url w = (r, w') →
  new_downloads w w' = [] ∨
  new_downloads w w' = [DownloadCall (location self) name version url].
Proof.
  unfold Library.fetch.
  rewrite (bind_ok _ _ _ _ _ (in_collection_eval _ _ _ _)).
  destruct (_ && _); simpl.
  - intros [(e & [=] & _)|([] & w1 & [= <-] & ->%get_edition_trace)]%bind_inv.
    left. by apply new_downloads_same.
  - assert (Hadd : ∀ r1 w1, Library._add_project self name version url w = (r1, w1) →
      new_downloads w w1 = [] ∨
      new_downloads w w1 = [DownloadCall (location self) name version url]).
    { intros r1 w1. rewrite add_project_eval. destruct (bool_decide _).
      - intros [= <- <-]. left. by apply new_downloads_same.
      - intros [(e & Hmk & _)|([] & w2 & Hmk & Hw)]%bind_inv.
        + left. apply new_downloads_same. by eapply mkdir_parents_trace.
        + right. apply new_downloads_app. apply write_to_file_trace in Hw.
          apply mkdir_parents_trace in Hmk. by rewrite Hw, Hmk. }
    intros [(e & Hrun & _)|([] & w1 & Hrun & ->%get_edition_trace)]%bind_inv;
      by eapply Hadd.
Qed.

Lemma fetch_via_module_ok_edition module version home w e w' :
  fetch_via_module module version home w = (inr e, w') →
  e = Module_getitem (home // ".attending") (__name__ module)
        (expected_version (ByObject module) version) ∧
  Library.in_collection (mkLibrary (home // ".attending")) (__name__ module)
    (expected_version (ByObject module) version) w' = (inr true, w').
Proof.
  unfold fetch_via_module.
  intros (lib & w1 & Hnew & Hrest)%bind_inv_ok.
  destruct (Library_new_inv _ _ _ _ Hnew) as (-> & _ & _).
  rewrite (bind_ok _ _ _ _ _ (resolve_version_eval _ _ _)) in Hrest.
  apply bind_inv_ok in Hrest as ([] & w3 & _ & Hget).
  by apply get_edition_ok_inv in Hget as (-> & -> & ?).
Qed.

(** X10.  [attending_doc] only looks up: it calls no download, leaves the
    disk alone apart from making sure of the cache root, and when it
    returns, the handle is the one of the name and of the version it worked
    out, and that pair is in the collection. *)
Theorem attending_doc_only_looks_up
    (module : module_ref) (version : option string) (home : path)
    (w w' : World) (r : result Edition) :
  attending_doc module version home w = (r, w') →
  downloads w' = downloads w ∧
  (∀ q, q ∉ ancestors (home // ".attending") ++ [home // ".attending"] →
        fs w' !! q = fs w !! q) ∧
  (∀ e, r = inr e →
     e = Module_getitem (home // ".attending") (module_name module)
           (expected_version module version) ∧
     Library.in_collection (mkLibrary (home // ".attending")) (module_name module)
       (expected_version module version) w' = (inr true, w')).
Proof.
  unfold attending_doc. rewrite (bind_ok _ _ _ _ _ (resolve_version_eval _ _ _)).
  intros Hrun.
  assert (Hget : (∃ e, Library.new home w = (inl e, w') ∧ r = inl e) ∨
                 (∃ w1, Library.new home w = (inr (mkLibrary (home // ".attending")), w1) ∧
                   Library.get_edition (mkLibrary (home // ".attending"))
                     (module_name module) (expected_version module version) w1 = (r, w'))).
  { apply bind_inv in Hrun as [?|(lib & w1 & Hnew & Hget)]; [by left|].
    right. exists w1. destruct (Library_new_inv _ _ _ _ Hnew) as (-> & _ & _).
    split; [done|]. by destruct module. }
  destruct Hget as [(e & Hnew & ->)|(w1 & Hnew & Hget)].
  - split; [by eapply Library_new_trace|]. split; [|done].
    intros q Hq. by eapply Library_new_frame.
  - assert (w' = w1) as -> by by eapply get_edition_trace.
    split; [by eapply Library_new_trace|]. split.
    + intros q Hq. by eapply Library_new_frame.
    + intros e ->. by apply get_edition_ok_inv in Hget as (_ & -> & ?).
Qed.

(** X11.  What [fetch_via_module] returned, [attending_doc] finds again:
    called on the same module, version and home in the world the fetch
    left, with the cache root still there, it returns the same edition and
    changes nothing. *)
Theorem attending_doc_after_fetch_via_module
    (module : PyModule) (version : option string) (home : path)
    (w w' : World) (e : Edition) :
  fetch_via_module module version home w = (inr e, w') →
  is_Some (fs w' !! (home // ".attending")) →
  attending_doc (ByObject module) version home w' = (inr e, w').
Proof.
  intros [-> Hin]%fetch_via_module_ok_edition Hroot.
  unfold attending_doc. rewrite (bind_ok _ _ _ _ _ (resolve_version_eval _ _ _)).
  assert (Hnew : Library.new home w' = (inr (mkLibrary (home // ".attending")), w')).
  { rewrite Library_new_eval. by rewrite bool_decide_eq_true_2. }
  rewrite (bind_ok _ _ _ _ _ Hnew). by apply get_edition_present.
Qed.


(** X13.  For a module that declares its [__doc_url__], a pair that is
    already in the collection is returned as it is: nothing is downloaded
    and nothing changes. *)
Theorem fetch_via_module_declared_cached
    (module : PyModule) (version : option string) (home : path) (w : World) :
  can_monitor module = true →
  is_Some (fs w !! (home // ".attending")) →
  Library.in_collection (mkLibrary (home // ".attending")) (__name__ module)
    (expected_version (ByObject module) version) w = (inr true, w) →
  fetch_via_module module version home w =
    (inr (Module_getitem (home // ".attending") (__name__ module)
            (expected_version (ByObject module) version)), w).
Proof.
  intros [url Hdoc]%can_monitor_true Hroot Hin.
  assert (Hnew : Library.new home w = (inr (mkLibrary (home // ".attending")), w)).
  { rewrite Library_new_eval. by rewrite bool_decide_eq_true_2. }
  unfold fetch_via_module. rewrite (bind_ok _ _ _ _ _ Hnew).
  rewrite (bind_ok _ _ _ _ _ (resolve_version_eval _ _ _)). rewrite Hdoc.
  unfold bind at 1, bind at 1.
  rewrite (Library_fetch_cached _ _ _ _ _ Hin). unfold ret at 1.
  by apply get_edition_present.
Qed.

(** X14.  The edition that [fetch_via_name] returns has the version it
    was given or, without one, the registry's version for the name, else
    ["latest"]: on every path, also when the package is importable and
    reports a [__version__] of its own. *)
Theorem fetch_via_name_version_from_name
    (name : string) (version url : option string) (home : path)
    (w w' : World) (e : Edition) :
  fetch_via_name name version url home w = (inr e, w') →
  edition_version e =
    match version with
    | Some v => v
    | None => default "latest" (by_key !! name)
    end.
Proof.
  change (match version with Some v => v | None => default "latest" (by_key !! name) end)
    with (expected_version (ByName name) version).
  unfold fetch_via_name.
  intros (lib & w1 & Hnew & Hrest)%bind_inv_ok.
  rewrite (bind_ok _ _ _ _ _ (resolve_version_eval _ _ _)) in Hrest.
  destruct url as [u|].
  { by apply Library_fetch_ok_inv in Hrest as [-> _]. }
  destruct (import_module name) as [ex|python_module].
  - destruct ex; try done.
    destruct (get_doc_url name) as [u|].
    + by apply Library_fetch_ok_inv in Hrest as [-> _].
    + by apply bind_inv_ok in Hrest as (? & ? & _ & [=]).
  - by apply fetch_via_module_ok_edition in Hrest as [-> _].
Qed.

(** X15.  When the import fails with [ImportError] and the fallback
    resolver has a URL, [fetch_via_name] without a URL behaves as if that
    URL had been supplied. *)
Theorem fetch_via_name_fallback_url_as_supplied
    (name : string) (version : option string) (home : path) (w : World) (url : string) :
  import_module name = inl ImportError →
  get_doc_url name = Some url →
  fetch_via_name name version None home w =
    fetch_via_name name version (Some url) home w.
Proof.
  intros Himport Hurl. unfold fetch_via_name. by rewrite Himport, Hurl.
Qed.

(** X16.  With a URL supplied, [fetch_via_name] works under the home it
    was given: it downloads at most once, from that URL into
    [home/.attending], and the edition it returns lives there and is in the
    collection. *)
Theorem fetch_via_name_with_url_uses_home
    (name : string) (version : option string) (url : string) (home : path)
    (w w' : World) (r : result Edition) :
  fetch_via_name name version (Some url) home w = (r, w') →
  (new_downloads w w' = [] ∨
   new_downloads w w' =
     [DownloadCall (home // ".attending") name
        (expected_version (ByName name) version) (Some url)]) ∧
  (∀ e, r = inr e →
     e = Module_getitem (home // ".attending") name
           (expected_version (ByName name) version) ∧
     Library.in_collection (mkLibrary (home // ".attending")) name
       (expected_version (ByName name) version) w' = (inr true, w')).
Proof.
  unfold fetch_via_name.
  intros [(ex & Hnew & ->)|(lib & w1 & Hnew & Hrest)]%bind_inv.
  { split; [|done]. left. apply new_downloads_same. by eapply Library_new_trace. }
  destruct (Library_new_inv _ _ _ _ Hnew) as (-> & Htrace & _).
  rewrite (bind_ok _ _ _ _ _ (resolve_version_eval _ _ _)) in Hrest.
  split.
  - rewrite (new_downloads_shift _ _ _ Htrace).
    by apply Library_fetch_new_downloads in Hrest.
  - intros e ->. by apply Library_fetch_ok_inv in Hrest.
Qed.

(** X17.  For a name that neither the baked-in index nor the override
    file knows, [fetch_via_local_index] does nothing at all: it returns
    without an error, and not even the cache root is created. *)
Theorem fetch_via_local_index_miss_noop (name : string) (home : path) (w : World) :
  load_attending_index !! name = None →
  (fs w !! (default_home // ".attending" // "index.csv") = None ∨
   ∃ local, load_index (default_home // ".attending" // "index.csv") (fs w) = inr local ∧
            local !! name = None) →
  fetch_via_local_index name home w = (inr tt, w).
Proof.
  intros Hbaked Hlocal. unfold fetch_via_local_index. cbv zeta.
  unfold bind at 1, path_exists. case_bool_decide as Hex.
  - destruct Hlocal as [Hnone|(local & Hload & Hmiss)].
    { rewrite Hnone in Hex. by destruct Hex. }
    unfold bind at 1, read_index, bind at 1. rewrite Hload. unfold ret at 1.
    unfold dict_update.
    assert ((local ∪ load_attending_index) !! name = None) as ->
      by by apply lookup_union_None.
    done.
  - unfold bind at 1, ret at 1. by rewrite Hbaked.
Qed.

(** X18.  When the override file under the default home is there and
    loads, an entry of it for the name is the URL that is fetched; without
    one, the entry of the baked-in index is; without both, nothing
    happens. *)
Theorem fetch_via_local_index_merge
    (name : string) (home : path) (w : World) (local : gmap string string) :
  is_Some (fs w !! (default_home // ".attending" // "index.csv")) →
  load_index (default_home // ".attending" // "index.csv") (fs w) = inr local →
  fetch_via_local_index name home w =
    match local !! name with
    | Some url => (_ <- fetch_via_name name None (Some url) home ;; ret tt) w
    | None =>
        match load_attending_index !! name with
        | Some url => (_ <- fetch_via_name name None (Some url) home ;; ret tt) w
        | None => (inr tt, w)
        end
    end.
Proof.
  intros Hsome Hload. unfold fetch_via_local_index. cbv zeta.
  unfold bind at 1, path_exists. rewrite bool_decide_eq_true_2 by done.
  unfold bind at 1, read_index, bind at 1. rewrite Hload. unfold ret at 1.
  unfold dict_update. rewrite lookup_union.
  destruct (local !! name) as [u|]; destruct (load_attending_index !! name) as [u'|];
    done.
Qed.

(** X19.  When the override file is there and cannot be loaded, the
    exception of [load_index] comes out of [fetch_via_local_index] and
    nothing is fetched, also for a name of the baked-in index. *)
Theorem fetch_via_local_index_unreadable
    (name : string) (home : path) (w : World) (e : exn) :
  is_Some (fs w !! (default_home // ".attending" // "index.csv")) →
  load_index (default_home // ".attending" // "index.csv") (fs w) = inl e →
  fetch_via_local_index name home w = (inl e, w).
Proof.
  intros Hsome Hload. unfold fetch_via_local_index. cbv zeta.
  unfold bind at 1, path_exists. rewrite bool_decide_eq_true_2 by done.
  unfold bind at 1, read_index, bind at 1. by rewrite Hload.
Qed.

(** X20.  Called on a module object, [fetch] works under the home it was
    given: every download goes to [home/.attending], and the edition it
    returns lives there. *)
Theorem fetch_module_object_uses_home
    (module : PyModule) (version : option string) (home : path)
    (w w' : World) (r : result Edition) :
  fetch (ByObject module) version home w = (r, w') →
  Forall (fun c => dl_location c = home // ".attending") (new_downloads w w') ∧
  (∀ e, r = inr e → edition_home e = home // ".attending" // __name__ module).
Proof.
  simpl. intros Hrun. split.
  - apply downloads_to_new. by eapply fetch_via_module_trace.
  - intros e ->. by eapply fetch_via_module_ok_inv.
Qed.

(** X21.  When [fetch_via_module] returns, the edition is the one of the
    module's name and of the version given or, without one, the module's
    own [__version__], else the registry's, else ["latest"]; it lives under
    [home/.attending], and the pair is in the collection. *)
Theorem fetch_via_module_ok_cached
    (module : PyModule) (version : option string) (home : path)
    (w w' : World) (e : Edition) :
  fetch_via_module module version home w = (inr e, w') →
  e = Module_getitem (home // ".attending") (__name__ module)
        (match version with
         | Some v => v
         | None => match __version__ module with
                   | Some v => v
                   | None => default "latest" (by_key !! __name__ module)
                   end
         end) ∧
  Library.in_collection (mkLibrary (home // ".attending")) (__name__ module)
    (edition_version e) w' = (inr true, w').
Proof.
  intros [-> Hin]%fetch_via_module_ok_edition. by split.
Qed.

End TopLevel.

(** ** The code on explicit inputs

    The environment is [Demo.env]: the default home is [/home/user], the
    registry knows [requests], [numpy] and [yaml] can be imported, the
    fallback resolver knows [requests] only, and the baked-in index maps
    [foo] to [http://a]. *)

#[local] Existing Instance Demo.env.

(** A disk with the cache root under [/home/user] and the local override
    index in it. *)
Definition disk_home_index : filesystem :=
  <[Demo.home // ".attending" // "index.csv" := File "foo,http://b"]>
    (make_dirs (Demo.home // ".attending") ∅).

(** A disk with a second home [/tmp/h] whose cache root holds an override
    index, and no override index under [/home/user]. *)
Definition disk_other_index : filesystem :=
  <[["tmp"; "h"; ".attending"; "index.csv"] := File "foo,http://b"]>
    (make_dirs ["tmp"; "h"; ".attending"] Demo.disk0).




Lemma get_edition_found_iff_in_collection_witness :
  let lib := mkLibrary (Demo.home // ".attending") in
  let w := (Library.fetch lib "demo" "1.0" (Some "http://example.test/docs") Demo.world0).2 in
  (Library.get_edition lib "demo" "1.0" Demo.world0 = (inl KeyError, Demo.world0) ∧
   Library.retire lib "demo" "1.0" Demo.world0 = (inl KeyError, Demo.world0)) ∧
  Library.get_edition lib "demo" "1.0" w =
    (inr (Module_getitem (Demo.home // ".attending") "demo" "1.0"), w).
Proof.
  intros lib w. split.
  - apply (get_edition_found_iff_in_collection lib "demo" "1.0" Demo.world0 false).
    vm_compute. reflexivity.
  - apply (get_edition_found_iff_in_collection lib "demo" "1.0" w true).
    vm_compute. reflexivity.
Defined.

Lemma fetch_again_no_download_witness :
  let lib := mkLibrary (Demo.home // ".attending") in
  let url := Some "http://example.test/docs" in
  let w1 := (Library.fetch lib "demo" "1.0" url Demo.world0).2 in
  downloads w1 = [DownloadCall (Demo.home // ".attending") "demo" "1.0" url] ∧
  Library.fetch lib "demo" "1.0" url w1 =
    (inr (Module_getitem (Demo.home // ".attending") "demo" "1.0"), w1) ∧
  new_downloads w1 (Library.fetch lib "demo" "1.0" url w1).2 = [].
Proof.
  intros lib url w1. split; [vm_compute; reflexivity|].
  assert (Hfirst : Library.fetch lib "demo" "1.0" url Demo.world0 =
                   (inr (Module_getitem (Demo.home // ".attending") "demo" "1.0"), w1))
    by (vm_compute; reflexivity).
  destruct (fetch_again_no_download lib "demo" "1.0" url Demo.world0 w1 _ Hfirst)
    as (Hsecond & _ & Hnone).
  by split.
Defined.



Lemma fetch_via_name_exhausted_raises_TypeError_witness :
  let w1 := (Library.new Demo.home Demo.world0).2 in
  (∃ msg, fetch_via_name "nosuch" None None Demo.home Demo.world0 =
          (inl (TypeError msg), w1)) ∧
  (∀ s, fs w1 !! (Demo.home // ".attending" // "nosuch" // s) =
        fs Demo.world0 !! (Demo.home // ".attending" // "nosuch" // s)) ∧
  fs w1 !! (Demo.home // ".attending" // "nosuch") =
    fs Demo.world0 !! (Demo.home // ".attending" // "nosuch") ∧
  downloads w1 = downloads Demo.world0.
Proof.
  intros w1.
  apply (fetch_via_name_exhausted_raises_TypeError "nosuch" None Demo.home
           Demo.world0 w1 (mkLibrary (Demo.home // ".attending")));
    vm_compute; reflexivity.
Defined.

(** The failing input of C1, evaluated. *)
Example fetch_via_name_exhausted_run :
  (fetch_via_name "nosuch" None None Demo.home Demo.world0).1 =
    inl (TypeError "options_exhausted() takes 1 positional argument") ∧
  options_exhausted ["nosuch"] =
    inr (RuntimeError "Failed not find fallback url for nosuch").
Proof. vm_compute. split; reflexivity. Qed.

Lemma fetch_via_module_downloads_absent_url_witness :
  let w1 := (Library.new Demo.home Demo.world0).2 in
  let lib := mkLibrary (Demo.home // ".attending") in
  ∃ v : string,
    resolve_version (ByObject Demo.yaml) None w1 = (inr v, w1) ∧
    fetch_via_module Demo.yaml None Demo.home Demo.world0 =
      (write_to_file (Demo.home // ".attending") "yaml" v None ;;;
       Library.get_edition lib "yaml" v) w1 ∧
    downloads (fetch_via_module Demo.yaml None Demo.home Demo.world0).2 =
      downloads Demo.world0 ++ [DownloadCall (Demo.home // ".attending") "yaml" v None].
Proof.
  intros w1 lib.
  apply (fetch_via_module_downloads_absent_url Demo.yaml None Demo.home
           Demo.world0 w1 lib);
    vm_compute; reflexivity.
Defined.

(** The failing input of C4, evaluated: with a downloader that accepts the
    absent URL the call succeeds and leaves a cache entry made from no
    URL. *)
Example fetch_via_module_absent_url_run :
  let run := fetch_via_module Demo.yaml None Demo.home Demo.world0 in
  let root := Demo.home // ".attending" in
  run.1 = inr (Module_getitem root "yaml" "latest") ∧
  downloads run.2 = [DownloadCall root "yaml" "latest" None] ∧
  fs run.2 !! (root // "yaml" // "latest") = Some Dir ∧
  fs run.2 !! (root // "yaml" // "latest" // "index.html") = Some (File "").
Proof. vm_compute. repeat split; reflexivity. Qed.

Lemma fetch_via_local_index_reads_default_home_witness :
  let w := mkWorld disk_other_index [] in
  fetch_via_local_index "foo" ["tmp"; "h"] w =
    (_ <- fetch_via_name "foo" None (Some "http://a") ["tmp"; "h"] ;; ret tt) w.
Proof.
  intros w.
  apply (fetch_via_local_index_reads_default_home "foo" ["tmp"; "h"] w "http://a");
    vm_compute; reflexivity.
Defined.

(** The failing input of C5, evaluated: the override file under the home
    that was passed maps [foo] to [http://b], and the download is made from
    [http://a]. *)
Example fetch_via_local_index_other_home_run :
  let w := mkWorld disk_other_index [] in
  let run := fetch_via_local_index "foo" ["tmp"; "h"] w in
  load_index ["tmp"; "h"; ".attending"; "index.csv"] (fs w) =
    inr {[ "foo" := "http://b" ]} ∧
  load_attending_index !! "foo" = Some "http://a" ∧
  run.1 = inr tt ∧
  downloads run.2 =
    [DownloadCall ["tmp"; "h"; ".attending"] "foo" "latest" (Some "http://a")].
Proof. vm_compute. repeat split; reflexivity. Qed.

(** With the override file under the default home, the local entry wins. *)
Example fetch_via_local_index_default_home_run :
  let w := mkWorld disk_home_index [] in
  let run := fetch_via_local_index "foo" Demo.home w in
  run.1 = inr tt ∧
  downloads run.2 =
    [DownloadCall (Demo.home // ".attending") "foo" "latest" (Some "http://b")].
Proof. vm_compute. repeat split; reflexivity. Qed.

Lemma fetch_via_name_importable_uses_default_home_witness :
  let run := fetch_via_name "numpy" None None ["tmp"; "h"] Demo.world0 in
  run =
    (_ <- Library.new ["tmp"; "h"] ;;
     v <- resolve_version (ByName "numpy") None ;;
     fetch_via_module Demo.numpy (Some v) Demo.home) Demo.world0 ∧
  (∀ e w', run = (inr e, w') →
     edition_home e = Demo.home // ".attending" // "numpy" ∧
     Forall (fun c => dl_location c = Demo.home // ".attending")
            (new_downloads Demo.world0 w')).
Proof.
  intros run.
  assert (Himport : import_module "numpy" = inr Demo.numpy) by reflexivity.
  exact (fetch_via_name_importable_uses_default_home "numpy" None ["tmp"; "h"]
           Demo.numpy Demo.world0 Himport).
Defined.

(** The same call, evaluated: the edition is under [/home/user], and
    nothing is cached for [numpy] under [/tmp/h]. *)
Example fetch_via_name_importable_run :
  let run := fetch_via_name "numpy" None None ["tmp"; "h"] Demo.world0 in
  run.1 = inr (Module_getitem (Demo.home // ".attending") "numpy" "latest") ∧
  downloads run.2 =
    [DownloadCall (Demo.home // ".attending") "numpy" "latest" (Some "https://numpy.org/doc")] ∧
  fs run.2 !! ["tmp"; "h"; ".attending"] = Some Dir ∧
  fs run.2 !! ["tmp"; "h"; ".attending"; "numpy"] = None.
Proof. vm_compute. repeat split; reflexivity. Qed.

(** ** The further properties on explicit inputs *)

(** The library under [/home/user], the pair of the scenario, and the world
    after its first fetch. *)
Definition demo_lib : Library_t := mkLibrary (Demo.home // ".attending").

Definition demo_url : option string := Some "http://example.test/docs".

Definition world_demo : World := (Library.fetch demo_lib "demo" "1.0" demo_url Demo.world0).2.


(** The environment of [Demo.env] with a downloader that raises and leaves
    the disk as it found it. *)
Definition offline_write (location : path) (name version : string)
    (url : option string) (d : filesystem) : option exn * filesystem :=
  (Some (OtherError "connection refused"), d).

Definition offline_env : Env := {|
  default_home := Demo.home;
  by_key := {[ "requests" := "2.31.0" ]};
  import_module := Demo.demo_import;
  get_doc_url := Demo.demo_doc_url;
  write_to_file_impl := offline_write;
  load_attending_index := {[ "foo" := "http://a" ]};
  load_index := Demo.demo_load_index;
  retire_impl := Demo.demo_retire
|}.

(** A disk on which the override index path is a directory. *)
Definition disk_index_is_dir : filesystem :=
  make_dirs (Demo.home // ".attending" // "index.csv") ∅.


Lemma Library_new_idempotent_witness :
  let w1 := (Library.new Demo.home Demo.world0).2 in
  Library.new Demo.home w1 = (inr demo_lib, w1).
Proof.
  intros w1.
  apply (Library_new_idempotent Demo.home Demo.world0 w1 demo_lib).
  vm_compute. reflexivity.
Defined.

Lemma Library_fetch_cached_ignores_url_witness :
  Library.fetch demo_lib "demo" "1.0" (Some "http://elsewhere.test") world_demo =
    (inr (Module_getitem (Demo.home // ".attending") "demo" "1.0"), world_demo).
Proof.
  apply (Library_fetch_cached_ignores_url demo_lib "demo" "1.0" world_demo).
  vm_compute. reflexivity.
Defined.

Lemma Library_fetch_ok_in_collection_witness :
  let e := Module_getitem (Demo.home // ".attending") "demo" "1.0" in
  Library.in_collection demo_lib "demo" "1.0" world_demo = (inr true, world_demo) ∧
  e = Module_getitem (location demo_lib) "demo" "1.0" ∧
  Library.get_edition demo_lib "demo" "1.0" world_demo = (inr e, world_demo).
Proof.
  intros e.
  apply (Library_fetch_ok_in_collection demo_lib "demo" "1.0" demo_url Demo.world0).
  vm_compute. reflexivity.
Defined.

Lemma Library_fetch_conflict_witness :
  let w := mkWorld (<[Demo.home // ".attending" // "demo" // "1.0" := File "stray"]>
                      (make_dirs (Demo.home // ".attending" // "demo") ∅)) [] in
  Library.fetch demo_lib "demo" "1.0" demo_url w =
    (inl (FileExistsError (Demo.home // ".attending" // "demo" // "1.0")), w).
Proof.
  intros w. apply (Library_fetch_conflict demo_lib "demo" "1.0" demo_url w).
  - vm_compute. reflexivity.
  - vm_compute. by eexists.
Defined.

Lemma Library_fetch_at_most_one_download_witness :
  new_downloads Demo.world0 world_demo =
    [DownloadCall (Demo.home // ".attending") "demo" "1.0" demo_url].
Proof.
  assert (Hrun : Library.fetch demo_lib "demo" "1.0" demo_url Demo.world0 =
                 (inr (Module_getitem (Demo.home // ".attending") "demo" "1.0"), world_demo))
    by (vm_compute; reflexivity).
  destruct (Library_fetch_at_most_one_download _ _ _ _ _ _ _ Hrun) as [[Hnone|Hone] _].
  - vm_compute in Hnone. discriminate Hnone.
  - exact Hone.
Defined.

Lemma Library_fetch_failed_download_leaves_entry_witness :
  let destination := Demo.home // ".attending" // "demo" // "1.0" in
  let w1 := mkWorld (make_dirs destination Demo.disk0)
              [DownloadCall (Demo.home // ".attending") "demo" "1.0" demo_url] in
  pathlib_join (pathlib_join (location demo_lib) "demo") "1.0" = destination ∧
  @Library.fetch offline_env demo_lib "demo" "1.0" demo_url Demo.world0 =
    (inl (OtherError "connection refused"), w1) ∧
  ∀ url' : option string,
    @Library.fetch offline_env demo_lib "demo" "1.0" url' w1 =
      (inr (Module_getitem (Demo.home // ".attending") "demo" "1.0"), w1).
Proof.
  intros destination w1.
  apply (@Library_fetch_failed_download_leaves_entry offline_env demo_lib "demo" "1.0"
           demo_url Demo.world0 (OtherError "connection refused")
           (make_dirs destination Demo.disk0)).
  - vm_compute. repeat constructor.
  - reflexivity.
  - reflexivity.
  - vm_compute. reflexivity.
  - vm_compute. repeat constructor.
  - reflexivity.
  - vm_compute. reflexivity.
  - vm_compute. reflexivity.
Defined.

Lemma Library_fetch_fresh_witness :
  pathlib_join (pathlib_join (location demo_lib) "demo") "1.0" =
    Demo.home // ".attending" // "demo" // "1.0" ∧
  Library.fetch demo_lib "demo" "1.0" demo_url Demo.world0 =
    (inr (Module_getitem (Demo.home // ".attending") "demo" "1.0"),
     mkWorld (fs world_demo)
       (downloads Demo.world0 ++ [DownloadCall (Demo.home // ".attending") "demo" "1.0" demo_url])).
Proof.
  apply (Library_fetch_fresh demo_lib "demo" "1.0" demo_url Demo.world0 (fs world_demo)).
  - vm_compute. repeat constructor.
  - reflexivity.
  - reflexivity.
  - vm_compute. reflexivity.
  - vm_compute. repeat constructor.
  - vm_compute. reflexivity.
  - vm_compute. reflexivity.
  - vm_compute. reflexivity.
Defined.

Lemma retire_then_not_found_witness :
  let d := (Demo.demo_retire (Module_getitem (Demo.home // ".attending") "demo" "1.0")
              (fs world_demo)).2 in
  let w1 := mkWorld d (downloads world_demo) in
  Library.retire demo_lib "demo" "1.0" world_demo = (inr tt, w1) ∧
  Library.in_collection demo_lib "demo" "1.0" w1 = (inr false, w1) ∧
  Library.get_edition demo_lib "demo" "1.0" w1 = (inl KeyError, w1).
Proof.
  intros d w1.
  apply (retire_then_not_found demo_lib "demo" "1.0" world_demo d).
  - vm_compute. reflexivity.
  - reflexivity.
  - vm_compute. reflexivity.
Defined.

Lemma attending_doc_only_looks_up_witness :
  let run := attending_doc (ByName "demo") (Some "1.0") Demo.home world_demo in
  run.1 = inr (Module_getitem (Demo.home // ".attending") "demo" "1.0") ∧
  downloads run.2 = downloads world_demo.
Proof.
  intros run.
  assert (Hrun : attending_doc (ByName "demo") (Some "1.0") Demo.home world_demo =
                 (run.1, run.2)) by (vm_compute; reflexivity).
  split; [vm_compute; reflexivity|].
  by destruct (attending_doc_only_looks_up _ _ _ _ _ _ Hrun) as (Htrace & _).
Defined.

Lemma attending_doc_after_fetch_via_module_witness :
  let run := fetch_via_module Demo.numpy None Demo.home Demo.world0 in
  let e := Module_getitem (Demo.home // ".attending") "numpy" "1.26.0" in
  attending_doc (ByObject Demo.numpy) None Demo.home run.2 = (inr e, run.2).
Proof.
  intros run e.
  apply (attending_doc_after_fetch_via_module Demo.numpy None Demo.home Demo.world0).
  - vm_compute. reflexivity.
  - vm_compute. by eexists.
Defined.


Lemma fetch_via_module_declared_cached_witness :
  let w := (fetch_via_module Demo.numpy None Demo.home Demo.world0).2 in
  fetch_via_module Demo.numpy None Demo.home w =
    (inr (Module_getitem (Demo.home // ".attending") "numpy" "1.26.0"), w).
Proof.
  intros w.
  apply (fetch_via_module_declared_cached Demo.numpy None Demo.home w).
  - reflexivity.
  - vm_compute. by eexists.
  - vm_compute. reflexivity.
Defined.

Lemma fetch_via_name_version_from_name_witness :
  let run := fetch_via_name "numpy" None None Demo.home Demo.world0 in
  let e := Module_getitem (Demo.home // ".attending") "numpy" "latest" in
  __version__ Demo.numpy = Some "1.26.0" ∧
  run.1 = inr e ∧
  edition_version e = default "latest" (by_key !! "numpy").
Proof.
  intros run e. split; [reflexivity|]. split; [vm_compute; reflexivity|].
  assert (Hrun : fetch_via_name "numpy" None None Demo.home Demo.world0 = (inr e, run.2))
    by (vm_compute; reflexivity).
  exact (fetch_via_name_version_from_name "numpy" None None Demo.home Demo.world0
           run.2 e Hrun).
Defined.

Lemma fetch_via_name_fallback_url_as_supplied_witness :
  fetch_via_name "requests" None None Demo.home Demo.world0 =
    fetch_via_name "requests" None (Some "https://requests.readthedocs.io")
      Demo.home Demo.world0.
Proof.
  apply (fetch_via_name_fallback_url_as_supplied "requests" None Demo.home Demo.world0);
    reflexivity.
Defined.

Lemma fetch_via_name_with_url_uses_home_witness :
  let run := fetch_via_name "foo" None (Some "http://a") ["tmp"; "h"] Demo.world0 in
  let e := Module_getitem ["tmp"; "h"; ".attending"] "foo" "latest" in
  e = Module_getitem (["tmp"; "h"] // ".attending") "foo" "latest" ∧
  Library.in_collection (mkLibrary (["tmp"; "h"] // ".attending")) "foo" "latest" run.2 =
    (inr true, run.2).
Proof.
  intros run e.
  assert (Hrun : fetch_via_name "foo" None (Some "http://a") ["tmp"; "h"] Demo.world0 =
                 (inr e, run.2)) by (vm_compute; reflexivity).
  destruct (fetch_via_name_with_url_uses_home _ _ _ _ _ _ _ Hrun) as [_ Hok].
  exact (Hok e eq_refl).
Defined.

Lemma fetch_via_local_index_miss_noop_witness :
  fetch_via_local_index "bar" ["tmp"; "h"] Demo.world0 = (inr tt, Demo.world0).
Proof.
  apply (fetch_via_local_index_miss_noop "bar" ["tmp"; "h"] Demo.world0).
  - vm_compute. reflexivity.
  - left. vm_compute. reflexivity.
Defined.

Lemma fetch_via_local_index_merge_witness :
  let w := mkWorld disk_home_index [] in
  fetch_via_local_index "foo" Demo.home w =
    (_ <- fetch_via_name "foo" None (Some "http://b") Demo.home ;; ret tt) w.
Proof.
  intros w.
  assert (Hsome : is_Some (fs w !! (default_home // ".attending" // "index.csv")))
    by (vm_compute; by eexists).
  assert (Hload : load_index (default_home // ".attending" // "index.csv") (fs w) =
                  inr {[ "foo" := "http://b" ]}) by (vm_compute; reflexivity).
  exact (fetch_via_local_index_merge "foo" Demo.home w {[ "foo" := "http://b" ]}
           Hsome Hload).
Defined.

Lemma fetch_via_local_index_unreadable_witness :
  let w := mkWorld disk_index_is_dir [] in
  fetch_via_local_index "foo" Demo.home w =
    (inl (OtherError "cannot read the index file"), w).
Proof.
  intros w.
  apply (fetch_via_local_index_unreadable "foo" Demo.home w).
  - vm_compute. by eexists.
  - vm_compute. reflexivity.
Defined.

Lemma fetch_module_object_uses_home_witness :
  let run := fetch (ByObject Demo.numpy) None ["tmp"; "h"] Demo.world0 in
  Forall (fun c => dl_location c = ["tmp"; "h"] // ".attending")
         (new_downloads Demo.world0 run.2) ∧
  (∀ e, run.1 = inr e → edition_home e = ["tmp"; "h"] // ".attending" // "numpy").
Proof.
  intros run.
  exact (fetch_module_object_uses_home Demo.numpy None ["tmp"; "h"] Demo.world0
           run.2 run.1 (surjective_pairing run)).
Defined.

Lemma fetch_via_module_ok_cached_witness :
  let run := fetch_via_module Demo.numpy None Demo.home Demo.world0 in
  let e := Module_getitem (Demo.home // ".attending") "numpy" "1.26.0" in
  run.1 = inr e ∧
  Library.in_collection demo_lib "numpy" "1.26.0" run.2 = (inr true, run.2).
Proof.
  intros run e. split; [vm_compute; reflexivity|].
  assert (Hrun : fetch_via_module Demo.numpy None Demo.home Demo.world0 = (inr e, run.2))
    by (vm_compute; reflexivity).
  exact (proj2 (fetch_via_module_ok_cached Demo.numpy None Demo.home Demo.world0
                  run.2 e Hrun)).
Defined.
